(** * Supervised trainer / evaluator factories and the AveragePrecision metric

    A shallow embedding of [ignite/engine/__init__.py] and
    [ignite/contrib/metrics/average_precision.py].

    The code is glue over torch, apex, torch_xla and sklearn.  Calls on those
    collaborators are recorded, in order, in a history of events; the values
    they return are given by oracles that may depend on the whole history
    (a model answers differently after an optimizer step).  What Python
    itself can raise in this code (a failed tuple unpacking, a free variable
    read before assignment, an attribute looked up on [None], the explicit
    [raise] statements) is modelled by the [Raise] result. *)

From Stdlib Require Import List String Bool Arith Lia Sorted.
Import ListNotations.
Open Scope string_scope.
Open Scope list_scope.

Set Implicit Arguments.

(** ** Python exceptions *)

Inductive exn : Type :=
| ValueError                      (* x, y = seq with len(seq) <> 2 *)
| NameError (name : string)       (* free variable read before assignment *)
| AttributeError (attr : string)  (* attribute looked up on None or on a bool *)
| RuntimeError (msg : string)
| ImportError (msg : string).

Inductive result (A : Type) : Type :=
| Ok (a : A)
| Raise (e : exn).

Arguments Ok {A} a.
Arguments Raise {A} e.

Definition is_Ok {A} (r : result A) : bool :=
  match r with Ok _ => true | Raise _ => false end.

(** ** Devices *)

(** [device: Optional[Union[str, torch.device]]]; a [torch.device] has a
    [type] string and an optional index. *)
Inductive Device : Type :=
| DeviceStr (s : string)
| TorchDevice (type : string) (index : option nat).

(** [needle in haystack] on Python strings. *)
Definition str_in (needle haystack : string) : bool :=
  match String.index 0 needle haystack with
  | Some _ => true
  | None => false
  end.

(** [device.type if isinstance(device, torch.device) else device] *)
Definition device_type (device : option Device) : option string :=
  match device with
  | Some (TorchDevice type _) => Some type
  | Some (DeviceStr s) => Some s
  | None => None
  end.

(** ["xla" in device_type if device_type is not None else False] *)
Definition on_tpu_of (device : option Device) : bool :=
  match device_type device with
  | Some t => str_in "xla" t
  | None => false
  end.

(** The value bound to the name [amp] inside [create_supervised_trainer]:
    the boolean argument, or the [apex.amp] module once
    [from apex import amp] has rebound it. *)
Inductive amp_value : Type :=
| AmpBool (b : bool)
| AmpApexModule.

Definition truthy_amp (a : amp_value) : bool :=
  match a with
  | AmpBool b => b
  | AmpApexModule => true
  end.

(** What is installed in the interpreter that runs the module. *)
Record Env : Type := {
  has_xla_support : bool;          (* idist.has_xla_support *)
  torch_ge_1_6_0 : bool;           (* LooseVersion(torch.__version__) >= LooseVersion("1.6.0") *)
  apex_importable : bool           (* from apex import amp succeeds *)
}.

(** ** The external objects *)

Class Objects : Type := {
  Tensor : Type;
  nn_Module : Type;    (* torch.nn.Module *)
  Optimizer : Type;    (* torch.optim.Optimizer *)
  LossFn : Type;
  GradScaler : Type;   (* torch.cuda.amp.GradScaler *)
  Metric : Type;       (* ignite.metrics.Metric *)
  KwVal : Type;        (* values of **grad_norm_kwargs *)
  EngineObj : Type     (* the engine as its callback receives it *)
}.

Section Events.
Context `{Objects}.

(** What [torch.nn.utils.clip_grad_norm_] can be handed by this code. *)
Inductive Params : Type :=
| ModelParameters (m : nn_Module)       (* model.parameters() *)
| MasterParams (o : Optimizer).      (* amp.master_params(optimizer) *)

Inductive Event : Type :=
| Ev_model_train (m : nn_Module)
| Ev_model_eval (m : nn_Module)
| Ev_model_to (m : nn_Module) (d : option Device)
| Ev_model_call (m : nn_Module) (x : Tensor)
| Ev_optimizer_zero_grad (o : Optimizer)
| Ev_optimizer_step (o : Optimizer)
| Ev_loss_fn_call (f : LossFn) (y_pred y : Tensor)
| Ev_autocast_enter (enabled : amp_value)
| Ev_autocast_exit
| Ev_no_grad_enter
| Ev_no_grad_exit
| Ev_scale_loss_enter (loss : Tensor) (o : Optimizer)
| Ev_scale_loss_exit
| Ev_backward (t : Tensor)
| Ev_scaler_scale (s : GradScaler) (loss : Tensor)
| Ev_scaler_unscale_ (s : GradScaler) (o : Optimizer)
| Ev_scaler_step (s : GradScaler) (o : Optimizer)
| Ev_scaler_update (s : GradScaler)
| Ev_clip_grad_norm_ (p : Params) (kwargs : list (string * KwVal))
| Ev_xm_optimizer_step (o : Optimizer) (barrier : bool)
| Ev_Engine_init (deterministic : bool)
| Ev_metric_attach (metric : Metric) (name : string).

Definition history : Type := list Event.


Definition touches_optimizer (e : Event) : bool :=
  match e with
  | Ev_optimizer_zero_grad _ | Ev_optimizer_step _
  | Ev_scale_loss_enter _ _ | Ev_scaler_unscale_ _ _ | Ev_scaler_step _ _
  | Ev_clip_grad_norm_ (MasterParams _) _ | Ev_xm_optimizer_step _ _ => true
  | _ => false
  end.

Definition touches_loss_fn (e : Event) : bool :=
  match e with
  | Ev_loss_fn_call _ _ _ => true
  | _ => false
  end.

Definition is_clip (e : Event) : bool :=
  match e with
  | Ev_clip_grad_norm_ _ _ => true
  | _ => false
  end.

(** ** The monad: a history that survives exceptions *)

Definition M (A : Type) : Type := history -> result A * history.

Definition ret {A} (a : A) : M A := fun h => (Ok a, h).

Definition raise {A} (e : exn) : M A := fun h => (Raise e, h).

Definition bind {A B} (m : M A) (k : A -> M B) : M B :=
  fun h =>
    match m h with
    | (Ok a, h') => k a h'
    | (Raise e, h') => (Raise e, h')
    end.

Definition lift {A} (r : result A) : M A := fun h => (r, h).

(** A call on a collaborator that returns nothing of interest. *)
Definition call (e : Event) : M unit := fun h => (Ok tt, h ++ [e]).

(** A call whose answer is given by an oracle that sees the history. *)
Definition ask {A} (e : Event) (answer : history -> A) : M A :=
  fun h => (Ok (answer h), h ++ [e]).

(** [with cm: body]: [__exit__] runs also when the body raises, and the
    exception of the body then propagates (none of the context managers
    used here swallows it). *)
Definition with_ {A B} (enter : M A) (exit : M unit) (body : A -> M B) : M B :=
  fun h =>
    match enter h with
    | (Raise e, h1) => (Raise e, h1)
    | (Ok a, h1) =>
        let (r, h2) := body a h1 in
        match exit h2 with
        | (Ok _, h3) => (r, h3)
        | (Raise e, h3) => (Raise e, h3)
        end
    end.

(** Reading a free variable of the enclosing function: [None] is a cell
    that no executed statement has assigned. *)
Definition free {A} (name : string) (cell : option A) : M A :=
  match cell with
  | Some v => ret v
  | None => raise (NameError name)
  end.

(** [a and b] and [not a] on conditions, with Python's short circuit. *)
Definition and_ (a b : M bool) : M bool :=
  bind a (fun x => if x then b else ret false).

Definition not_ (a : M bool) : M bool :=
  bind a (fun x => ret (negb x)).

(** [x, y = seq] *)
Definition unpack2 {A} (seq : list A) : result (A * A) :=
  match seq with
  | [x; y] => Ok (x, y)
  | _ => Raise ValueError
  end.

End Events.

Declare Scope py_scope.
Delimit Scope py_scope with py.
Notation "x <- c1 ;; c2" := (bind c1 (fun x => c2))
  (at level 61, c1 at next level, right associativity) : py_scope.
Notation "' pat <- c1 ;; c2" := (bind c1 (fun x => match x with pat => c2 end))
  (at level 61, pat pattern, c1 at next level, right associativity) : py_scope.
Notation "c1 ;; c2" := (bind c1 (fun _ => c2))
  (at level 61, right associativity) : py_scope.
Open Scope py_scope.

(** ** Answers of the collaborators *)

Class Externals `{Objects} : Type := {
  (* ignite.utils.convert_tensor(input_, device, non_blocking) *)
  convert_tensor : Tensor -> option Device -> bool -> Tensor;
  (* model(x) *)
  model_output : history -> nn_Module -> Tensor -> Tensor;
  (* loss_fn(y_pred, y) *)
  loss_output : history -> LossFn -> Tensor -> Tensor -> Tensor;
  (* what [with amp.scale_loss(loss, optimizer) as scaled_loss] binds *)
  apex_scaled_loss : history -> Tensor -> Optimizer -> Tensor;
  (* scaler.scale(loss) *)
  scaler_scaled : history -> GradScaler -> Tensor -> Tensor
}.

(** Modelled from the spec: the Engine class ([ignite.engine.engine.Engine]
    and [DeterministicEngine] are imported by src/, not defined there).  The
    spec calls it an external event-dispatch state machine to which the
    factories hand a per-iteration callback and to which metrics are
    attached by name; an engine value keeps just that: the callback it was
    constructed with, which of the two classes built it, and the metrics
    attached so far, in attachment order. *)
Record Engine `{Objects} (Output : Type) : Type := {
  process_function : EngineObj -> list Tensor -> M Output;
  is_deterministic : bool;
  attached : list (string * Metric)
}.

Section EngineModel.
Context `{Objects}.
Variable Output : Type.

(** [Engine(f)] and [DeterministicEngine(f)] *)
Definition Engine_init (deterministic : bool)
    (f : EngineObj -> list Tensor -> M Output) : M (Engine Output) :=
  fun h =>
    (Ok {| process_function := f; is_deterministic := deterministic; attached := [] |},
     h ++ [Ev_Engine_init deterministic]).

(** Modelled from the spec: [metric.attach(engine, name)]
    ([ignite.metrics.Metric] is not in src/); the metrics-attachment
    protocol registers the metric on the engine under [name]. *)
Definition Metric_attach (metric : Metric) (engine : Engine Output) (name : string)
    : M (Engine Output) :=
  fun h =>
    (Ok {| process_function := process_function engine;
           is_deterministic := is_deterministic engine;
           attached := attached engine ++ [(name, metric)] |},
     h ++ [Ev_metric_attach metric name]).

End EngineModel.

(** ** [_prepare_batch] *)

Definition _prepare_batch `{Externals} (batch : list Tensor)
    (device : option Device) (non_blocking : bool) : result (list Tensor) :=
  match unpack2 batch with
  | Ok (x, y) =>
      Ok [convert_tensor x device non_blocking;
          convert_tensor y device non_blocking]
  | Raise e => Raise e
  end.

(** ** [create_supervised_trainer] *)

(** The arguments of the factory.  The two user callbacks are functions
    that may raise; they are handed values, not collaborators. *)
Module Trainer.
Record Args `{Objects} (Output : Type) : Type := {
  model : nn_Module;
  optimizer : Optimizer;
  loss_fn : LossFn;
  device : option Device;
  non_blocking : bool;
  prepare_batch : list Tensor -> option Device -> bool -> result (list Tensor);
  output_transform : Tensor -> Tensor -> Tensor -> Tensor -> result Output;
  deterministic : bool;
  amp : bool;
  scaler : option GradScaler;
  opt_level : string;
  grad_norm_kwargs : list (string * KwVal)
}.
End Trainer.

(** The local variables of [create_supervised_trainer] that [_update]
    reads as free variables, as they stand when the factory returns.
    [is_native_amp] and [is_apex_amp] are assigned in one branch each. *)
Record Locals : Type := {
  on_tpu : bool;
  amp : amp_value;
  autocast : option unit;          (* bound by from torch.cuda.amp import autocast *)
  is_native_amp : option bool;
  is_apex_amp : option bool
}.

(** Truth value of a dict, here as the list of its items: empty is false. *)
Definition dict_truthy {K V : Type} (d : list (K * V)) : bool :=
  match d with
  | [] => false
  | _ :: _ => true
  end.

(** [scaler.attr] when [scaler] may be [None]. *)
Definition scaler_attr {S : Type} (scaler : option S) (attr : string) : result S :=
  match scaler with
  | Some s => Ok s
  | None => Raise (AttributeError attr)
  end.

(** [amp.attr]: only the apex module has [scale_loss] and [master_params]. *)
Definition amp_attr (a : amp_value) (attr : string) : result unit :=
  match a with
  | AmpApexModule => Ok tt
  | AmpBool _ => Raise (AttributeError attr)
  end.

(** The module-level name [xm] is bound only [if idist.has_xla_support]. *)
Definition global_xm (env : Env) : result unit :=
  if has_xla_support env then Ok tt else Raise (NameError "xm").

Section SupervisedTrainer.
Context `{Externals}.
Variable Output : Type.
Variable env : Env.
Variable a : Trainer.Args Output.

(** [y_pred = model(x); loss = loss_fn(y_pred, y)], the body of both
    branches of lines 125-131. *)
Definition forward_and_loss (x y : Tensor) : M (Tensor * Tensor) :=
  y_pred <- ask (Ev_model_call (Trainer.model a) x)
                (fun h => model_output h (Trainer.model a) x) ;;
  loss <- ask (Ev_loss_fn_call (Trainer.loss_fn a) y_pred y)
              (fun h => loss_output h (Trainer.loss_fn a) y_pred y) ;;
  ret (y_pred, loss).

Definition _update (l : Locals) (engine : EngineObj) (batch : list Tensor) : M Output :=
  let model := Trainer.model a in
  let optimizer := Trainer.optimizer a in
  let scaler := Trainer.scaler a in
  let grad_norm_kwargs := Trainer.grad_norm_kwargs a in
  let native := free "is_native_amp" (is_native_amp l) in
  let apex := free "is_apex_amp" (is_apex_amp l) in
  let kwargs_truthy := ret (dict_truthy grad_norm_kwargs) in
  call (Ev_model_train model) ;;
  call (Ev_optimizer_zero_grad optimizer) ;;
  xy <- lift (Trainer.prepare_batch a batch (Trainer.device a) (Trainer.non_blocking a)) ;;
  ' (x, y) <- lift (unpack2 xy) ;;
  c <- and_ native (not_ apex) ;;
  ' (y_pred, loss) <-
    (if c then
       free "autocast" (autocast l) ;;
       with_ (call (Ev_autocast_enter (amp l))) (call Ev_autocast_exit)
             (fun _ => forward_and_loss x y)
     else forward_and_loss x y) ;;
  (c <- and_ apex (not_ native) ;;
   if c then
     lift (amp_attr (amp l) "scale_loss") ;;
     with_ (ask (Ev_scale_loss_enter loss optimizer)
                (fun h => apex_scaled_loss h loss optimizer))
           (call Ev_scale_loss_exit)
           (fun scaled_loss => call (Ev_backward scaled_loss))
   else
     c <- and_ (not_ apex) native ;;
     if c then
       s <- lift (scaler_attr scaler "scale") ;;
       scaled <- ask (Ev_scaler_scale s loss) (fun h => scaler_scaled h s loss) ;;
       call (Ev_backward scaled) ;;
       s <- lift (scaler_attr scaler "unscale_") ;;
       call (Ev_scaler_unscale_ s optimizer)
     else ret tt) ;;
  (c <- and_ (and_ kwargs_truthy (not_ apex)) native ;;
   if c then
     call (Ev_clip_grad_norm_ (ModelParameters model) grad_norm_kwargs)
   else
     c <- and_ (and_ kwargs_truthy apex) (not_ native) ;;
     if c then
       lift (amp_attr (amp l) "master_params") ;;
       call (Ev_clip_grad_norm_ (MasterParams optimizer) grad_norm_kwargs)
     else ret tt) ;;
  (c <- and_ (ret (on_tpu l)) (not_ (ret (truthy_amp (amp l)))) ;;
   if c then
     lift (global_xm env) ;;
     call (Ev_xm_optimizer_step optimizer true)
   else
     c <- and_ native (not_ apex) ;;
     if c then
       s <- lift (scaler_attr scaler "step") ;;
       call (Ev_scaler_step s optimizer) ;;
       s <- lift (scaler_attr scaler "update") ;;
       call (Ev_scaler_update s)
     else
       c <- and_ (not_ native) apex ;;
       if c then call (Ev_optimizer_step optimizer) else ret tt) ;;
  lift (Trainer.output_transform a x y y_pred loss).

(** The three ways through lines 109-119: which cells get assigned. *)
Definition amp_setup (on_tpu : bool) : M Locals :=
  if Trainer.amp a && torch_ge_1_6_0 env then
    (* from torch.cuda.amp import autocast; is_native_amp = True *)
    ret {| on_tpu := on_tpu; amp := AmpBool (Trainer.amp a); autocast := Some tt;
           is_native_amp := Some true; is_apex_amp := None |}
  else if Trainer.amp a then
    (* from apex import amp; is_apex_amp = True *)
    if apex_importable env then
      ret {| on_tpu := on_tpu; amp := AmpApexModule; autocast := None;
             is_native_amp := None; is_apex_amp := Some true |}
    else
      raise (ImportError "Please install apex from https://github.com/nvidia/apex.")
  else
    ret {| on_tpu := on_tpu; amp := AmpBool (Trainer.amp a); autocast := None;
           is_native_amp := None; is_apex_amp := None |}.

Definition create_supervised_trainer : M (Engine Output) :=
  let device_type := device_type (Trainer.device a) in
  let on_tpu :=
    match device_type with
    | Some t => str_in "xla" t
    | None => false
    end in
  (if on_tpu && negb (has_xla_support env) then
     raise (RuntimeError "In order to run on TPU, please install PyTorch XLA")
   else ret tt) ;;
  l <- amp_setup on_tpu ;;
  trainer <- Engine_init (Trainer.deterministic a) (_update l) ;;
  ret trainer.

End SupervisedTrainer.

(** ** [create_supervised_evaluator] *)

Module Evaluator.
Record Args `{Objects} (Output : Type) : Type := {
  model : nn_Module;
  metrics : option (list (string * Metric));   (* Optional[Dict[str, Metric]], as its items *)
  device : option Device;
  non_blocking : bool;
  prepare_batch : list Tensor -> option Device -> bool -> result (list Tensor);
  output_transform : Tensor -> Tensor -> Tensor -> result Output
}.
End Evaluator.

(** [metrics or {}] *)
Definition metrics_or_empty {K V : Type} (metrics : option (list (K * V))) : list (K * V) :=
  match metrics with
  | Some d => if dict_truthy d then d else []
  | None => []
  end.

Section SupervisedEvaluator.
Context `{Externals}.
Variable Output : Type.
Variable a : Evaluator.Args Output.

Definition _inference (engine : EngineObj) (batch : list Tensor) : M Output :=
  let model := Evaluator.model a in
  call (Ev_model_eval model) ;;
  with_ (call Ev_no_grad_enter) (call Ev_no_grad_exit) (fun _ =>
    xy <- lift (Evaluator.prepare_batch a batch (Evaluator.device a)
                                        (Evaluator.non_blocking a)) ;;
    ' (x, y) <- lift (unpack2 xy) ;;
    y_pred <- ask (Ev_model_call model x) (fun h => model_output h model x) ;;
    lift (Evaluator.output_transform a x y y_pred)).

(** [for name, metric in metrics.items(): metric.attach(evaluator, name)] *)
Fixpoint attach_metrics (items : list (string * Metric)) (evaluator : Engine Output)
    : M (Engine Output) :=
  match items with
  | [] => ret evaluator
  | (name, metric) :: rest =>
      evaluator <- Metric_attach metric evaluator name ;;
      attach_metrics rest evaluator
  end.

Definition create_supervised_evaluator : M (Engine Output) :=
  let metrics := metrics_or_empty (Evaluator.metrics a) in
  evaluator <- Engine_init false _inference ;;
  evaluator <- attach_metrics metrics evaluator ;;
  ret evaluator.

End SupervisedEvaluator.

(** The defaults of the two signatures. *)
Definition default_trainer_args `{Externals} (Output : Type) (item : Tensor -> Output)
    (model : nn_Module) (optimizer : Optimizer) (loss_fn : LossFn)
    : Trainer.Args Output :=
  {| Trainer.model := model;
     Trainer.optimizer := optimizer;
     Trainer.loss_fn := loss_fn;
     Trainer.device := None;
     Trainer.non_blocking := false;
     Trainer.prepare_batch := _prepare_batch;
     Trainer.output_transform := fun x y y_pred loss => Ok (item loss);
     Trainer.deterministic := false;
     Trainer.amp := false;
     Trainer.scaler := None;
     Trainer.opt_level := "O1";
     Trainer.grad_norm_kwargs := [] |}.

Definition default_evaluator_args `{Externals} (model : nn_Module)
    : Evaluator.Args (Tensor * Tensor) :=
  {| Evaluator.model := model;
     Evaluator.metrics := None;
     Evaluator.device := None;
     Evaluator.non_blocking := false;
     Evaluator.prepare_batch := _prepare_batch;
     Evaluator.output_transform := fun x y y_pred => Ok (y_pred, y) |}.

(** The events a computation adds to the history it starts from. *)
Definition new_events `{Objects} {A : Type} (m : M A) (h : history) : history :=
  skipn (List.length h) (snd (m h)).

(** ** [AveragePrecision] *)

Module AveragePrecision.
Section Metric.
Variables Tensor NDArray Score Transform : Type.
Variable cpu : Tensor -> Tensor.                                (* t.cpu() *)
Variable numpy : Tensor -> NDArray.                             (* t.numpy() *)
Variable sklearn_average_precision_score : NDArray -> NDArray -> Score.
Variable sklearn_importable : bool.

(** [from sklearn.metrics import average_precision_score] *)
Definition import_average_precision_score : result (NDArray -> NDArray -> Score) :=
  if sklearn_importable then Ok sklearn_average_precision_score
  else Raise (ImportError "No module named 'sklearn'").

Definition average_precision_compute_fn : result (Tensor -> Tensor -> Score) :=
  match import_average_precision_score with
  | Raise e => Raise e
  | Ok average_precision_score =>
      let wrapper (y_preds y_targets : Tensor) : Score :=
        let y_true := numpy (cpu y_targets) in
        let y_pred := numpy (cpu y_preds) in
        average_precision_score y_true y_pred in
      Ok wrapper
  end.

(** Modelled from the spec: [EpochMetric.__init__] ([ignite.metrics.EpochMetric]
    is not in src/); the metric is an accumulator whose statistic is
    computed by the compute function it was given, so the constructor
    keeps its arguments. *)
Record EpochMetric : Type := {
  compute_fn : Tensor -> Tensor -> Score;
  output_transform : Transform;
  check_compute_fn : bool;
  device : Device
}.

Definition EpochMetric_init (compute_fn : Tensor -> Tensor -> Score)
    (output_transform : Transform) (check_compute_fn : bool) (device : Device)
    : result EpochMetric :=
  Ok {| compute_fn := compute_fn; output_transform := output_transform;
        check_compute_fn := check_compute_fn; device := device |}.

Record t : Type := {
  average_precision_compute : Tensor -> Tensor -> Score;
  super : EpochMetric
}.

Definition __init__ (output_transform : Transform) (check_compute_fn : bool)
    (device : Device) : result t :=
  match import_average_precision_score with
  | Raise (ImportError _) =>
      Raise (RuntimeError "This contrib module requires sklearn to be installed.")
  | Raise e => Raise e
  | Ok _ =>
      match average_precision_compute_fn with
      | Raise e => Raise e
      | Ok average_precision_compute =>
          match EpochMetric_init average_precision_compute output_transform
                                 check_compute_fn device with
          | Raise e => Raise e
          | Ok base =>
              Ok {| average_precision_compute := average_precision_compute;
                    super := base |}
          end
      end
  end.

End Metric.
End AveragePrecision.

(** ** A small concrete world, to run the code on *)

Module Toy.

#[global] Instance objects : Objects := {|
  Tensor := nat;
  nn_Module := string;
  Optimizer := string;
  LossFn := string;
  GradScaler := string;
  Metric := string;
  KwVal := nat;
  EngineObj := unit
|}.

(** Moving to a device adds 1000; the model doubles and adds the number of
    optimizer steps taken so far; the loss is the distance. *)
Definition steps_taken (h : history) : nat :=
  List.length (filter (fun e => match e with Ev_optimizer_step _ => true | _ => false end) h).

Definition move (t : nat) (device : option Device) (non_blocking : bool) : nat :=
  match device with
  | None => t
  | Some _ => t + 1000
  end.

Definition net (h : history) (m : string) (x : nat) : nat := 2 * x + steps_taken h.

Definition distance (h : history) (f : string) (y_pred y : nat) : nat :=
  (y_pred - y) + (y - y_pred).

#[global] Instance externals : @Externals objects :=
  @Build_Externals objects move net distance
    (fun _ loss _ => 8 * loss) (fun _ _ loss => 16 * loss).

Definition no_amp_args : @Trainer.Args objects nat :=
  @default_trainer_args objects externals nat (fun loss => loss) "net" "sgd" "mse".

Definition with_amp (grad_norm_kwargs : list (string * nat)) (device : option Device)
    : @Trainer.Args objects nat :=
  {| Trainer.model := "net";
     Trainer.optimizer := "sgd";
     Trainer.loss_fn := "mse";
     Trainer.device := device;
     Trainer.non_blocking := false;
     Trainer.prepare_batch := _prepare_batch;
     Trainer.output_transform := fun x y y_pred loss => Ok loss;
     Trainer.deterministic := false;
     Trainer.amp := true;
     Trainer.scaler := Some "scaler";
     Trainer.opt_level := "O1";
     Trainer.grad_norm_kwargs := grad_norm_kwargs |}.

Definition on_device (device : option Device) : @Trainer.Args objects nat :=
  {| Trainer.model := "net";
     Trainer.optimizer := "sgd";
     Trainer.loss_fn := "mse";
     Trainer.device := device;
     Trainer.non_blocking := false;
     Trainer.prepare_batch := fun batch _ _ => Ok batch;
     Trainer.output_transform := fun x y y_pred loss => Ok loss;
     Trainer.deterministic := false;
     Trainer.amp := false;
     Trainer.scaler := None;
     Trainer.opt_level := "O1";
     Trainer.grad_norm_kwargs := [] |}.

(** Same model, another loss function and other scalers. *)
Definition externals_other_loss : @Externals objects :=
  @Build_Externals objects move net (fun _ _ _ _ => 7)
    (fun _ loss _ => loss) (fun _ _ loss => loss).

Definition eval_args (metrics : option (list (string * string)))
    : @Evaluator.Args objects (nat * nat) :=
  {| Evaluator.model := "net";
     Evaluator.metrics := metrics;
     Evaluator.device := None;
     Evaluator.non_blocking := false;
     Evaluator.prepare_batch := _prepare_batch;
     Evaluator.output_transform := fun x y y_pred => Ok (y_pred, y) |}.


Definition torch_1_6 : Env :=
  {| has_xla_support := false; torch_ge_1_6_0 := true; apex_importable := false |}.

Definition torch_1_5_apex : Env :=
  {| has_xla_support := false; torch_ge_1_6_0 := false; apex_importable := true |}.

Definition torch_xla : Env :=
  {| has_xla_support := true; torch_ge_1_6_0 := true; apex_importable := false |}.

(** The process function of the engine a factory returned, run on a batch
    from the history the factory left. *)
Definition first_iteration {Output : Type} (factory : M (Engine Output))
    (batch : list nat) : result Output * history :=
  match factory [] with
  | (Ok engine, h) => process_function engine tt batch h
  | (Raise e, h) => (Raise e, h)
  end.

End Toy.

(** Lets a literal such as ["net"] or [3] be read as an object of that world. *)
Canonical Structure Toy.objects.

(** ** Vocabulary of the statements *)

Section Vocabulary.
Context `{Objects}.

(** [emits P m]: from any history, [m] only appends events, and every
    event it appends satisfies [P]. *)
Definition emits {A : Type} (P : Event -> Prop) (m : M A) : Prop :=
  forall h, exists new, snd (m h) = h ++ new /\ Forall P new.

(** The states of the two flag cells that lines 109-119 can leave behind:
    each of them has a cell that [_update] reads while it is unassigned. *)
Definition unassigned_flag (l : Locals) : Prop :=
  is_native_amp l = None \/ (is_native_amp l = Some true /\ is_apex_amp l = None).

(** The exception of the first flag test of [_update] (line 125). *)
Definition first_dispatch_error (l : Locals) : exn :=
  match is_native_amp l with
  | None => NameError "is_native_amp"
  | Some _ => NameError "is_apex_amp"
  end.


(** The calls of [_inference] on the collaborators. *)
Inductive inference_event (model : nn_Module) : Event -> Prop :=
| ie_eval : inference_event model (Ev_model_eval model)
| ie_no_grad_enter : inference_event model Ev_no_grad_enter
| ie_no_grad_exit : inference_event model Ev_no_grad_exit
| ie_call (x : Tensor) : inference_event model (Ev_model_call model x).

(** The event of [metric.attach(evaluator, name)] for an item of the dict. *)
Definition attach_event (item : string * Metric) : Event :=
  Ev_metric_attach (snd item) (fst item).






End Vocabulary.

(** The collaborators a trainer's iteration may call: an event that is a
    call on a model, an optimizer or a loss function names the factory's
    one; [model.eval()] and [model.to] are no calls of a trainer. *)
Definition wired_to `{Objects} {Output : Type} (a : Trainer.Args Output)
    (e : Event) : Prop :=
  match e with
  | Ev_model_train m | Ev_model_call m _ => m = Trainer.model a
  | Ev_model_eval _ | Ev_model_to _ _ => False
  | Ev_optimizer_zero_grad o | Ev_optimizer_step o | Ev_scale_loss_enter _ o
  | Ev_scaler_unscale_ _ o | Ev_scaler_step _ o | Ev_xm_optimizer_step o _ =>
      o = Trainer.optimizer a
  | Ev_loss_fn_call f _ _ => f = Trainer.loss_fn a
  | Ev_clip_grad_norm_ (ModelParameters m) _ => m = Trainer.model a
  | Ev_clip_grad_norm_ (MasterParams o) _ => o = Trainer.optimizer a
  | _ => True
  end.

(** ** Vocabulary of the further properties *)

Section Order.
Context `{Objects}.

(** The exception a result carries, if any. *)
Definition error_of {A : Type} (r : result A) : option exn :=
  match r with
  | Ok _ => None
  | Raise e => Some e
  end.

(** The place of a call in the text of [_update], lines 122-151; the two
    arms of an [if]/[elif] share a place.  [None] is a call that does not
    occur in [_update]. *)
Definition update_phase (e : Event) : option nat :=
  match e with
  | Ev_model_train _ => Some 0
  | Ev_optimizer_zero_grad _ => Some 1
  | Ev_autocast_enter _ => Some 2
  | Ev_model_call _ _ => Some 3
  | Ev_loss_fn_call _ _ _ => Some 4
  | Ev_autocast_exit => Some 5
  | Ev_scale_loss_enter _ _ | Ev_scaler_scale _ _ => Some 6
  | Ev_backward _ => Some 7
  | Ev_scale_loss_exit | Ev_scaler_unscale_ _ _ => Some 8
  | Ev_clip_grad_norm_ _ _ => Some 9
  | Ev_xm_optimizer_step _ _ | Ev_scaler_step _ _ | Ev_optimizer_step _ => Some 10
  | Ev_scaler_update _ => Some 11
  | _ => None
  end.

(** Every event has a place, not before [from], and the places increase. *)
Fixpoint in_order (from : nat) (events : history) : bool :=
  match events with
  | [] => true
  | e :: rest =>
      match update_phase e with
      | Some p => Nat.leb from p && in_order (S p) rest
      | None => false
      end
  end.

Definition is_backward (e : Event) : bool :=
  match e with
  | Ev_backward _ => true
  | _ => false
  end.

End Order.

(** * Properties *)

(** ** How computations extend the history *)

Section Emits.
Context `{Objects}.

Lemma new_events_app {A : Type} (m : M A) (h new : history) :
  snd (m h) = h ++ new -> new_events m h = new.
Proof.
  intros E. unfold new_events. rewrite E. clear E.
  induction h as [|e h IH]; simpl; auto.
Qed.

Lemma emits_new_events {A : Type} (P : Event -> Prop) (m : M A) (h : history) :
  emits P m -> Forall P (new_events m h).
Proof.
  intros Hm. destruct (Hm h) as (new & E & F).
  erewrite new_events_app by exact E. exact F.
Qed.

Lemma emits_ret {A : Type} P (a : A) : emits P (ret a).
Proof. intros h. exists []. simpl. rewrite app_nil_r. auto. Qed.

Lemma emits_raise {A : Type} P (e : exn) : emits P (@raise _ A e).
Proof. intros h. exists []. simpl. rewrite app_nil_r. auto. Qed.

Lemma emits_lift {A : Type} P (r : result A) : emits P (lift r).
Proof. intros h. exists []. simpl. rewrite app_nil_r. auto. Qed.

Lemma emits_call (P : Event -> Prop) (e : Event) : P e -> emits P (call e).
Proof. intros Pe h. exists [e]. simpl. auto. Qed.

Lemma emits_ask {A : Type} (P : Event -> Prop) (e : Event) (f : history -> A) :
  P e -> emits P (ask e f).
Proof. intros Pe h. exists [e]. simpl. auto. Qed.

Lemma emits_bind {A B : Type} P (m : M A) (k : A -> M B) :
  emits P m -> (forall a, emits P (k a)) -> emits P (bind m k).
Proof.
  intros Hm Hk h. unfold bind.
  destruct (Hm h) as (n1 & E1 & F1).
  destruct (m h) as [[x|e] h1]; simpl in E1; subst h1.
  - destruct (Hk x (h ++ n1)) as (n2 & E2 & F2).
    exists (n1 ++ n2). rewrite E2, app_assoc. split; auto.
    apply Forall_app; split; assumption.
  - exists n1. auto.
Qed.

Lemma emits_with {A B : Type} P (enter : M A) (exit : M unit) (body : A -> M B) :
  emits P enter -> emits P exit -> (forall a, emits P (body a)) ->
  emits P (with_ enter exit body).
Proof.
  intros He Hx Hb h. unfold with_.
  destruct (He h) as (n1 & E1 & F1).
  destruct (enter h) as [[x|e] h1]; simpl in E1; subst h1.
  - destruct (Hb x (h ++ n1)) as (n2 & E2 & F2).
    destruct (body x (h ++ n1)) as [r h2]; simpl in E2; subst h2.
    destruct (Hx ((h ++ n1) ++ n2)) as (n3 & E3 & F3).
    destruct (exit ((h ++ n1) ++ n2)) as [[u|e] h3]; simpl in E3; subst h3;
      exists (n1 ++ n2 ++ n3); simpl; rewrite !app_assoc;
      (split; [reflexivity | apply Forall_app; split; [apply Forall_app; split|]; assumption]).
  - exists n1. auto.
Qed.

Lemma emits_free {A : Type} P (name : string) (cell : option A) :
  emits P (free name cell).
Proof. destruct cell; [apply emits_ret | apply emits_raise]. Qed.

Lemma emits_not P (c : M bool) : emits P c -> emits P (not_ c).
Proof. intros Hc. apply emits_bind; auto. intros x. apply emits_ret. Qed.

Lemma emits_and P (c1 c2 : M bool) : emits P c1 -> emits P c2 -> emits P (and_ c1 c2).
Proof.
  intros H1 H2. apply emits_bind; auto.
  intros [|]; [exact H2 | apply emits_ret].
Qed.

Lemma emits_if {A : Type} P (c : bool) (m1 m2 : M A) :
  emits P m1 -> emits P m2 -> emits P (if c then m1 else m2).
Proof. destruct c; auto. Qed.


End Emits.

(** Breaks a computation into its calls; the side conditions that remain
    are [P e] for the events [e] of the [call]s and [ask]s. *)
Ltac emits_step :=
  lazymatch goal with
  | |- emits _ (ret _) => apply emits_ret
  | |- emits _ (raise _) => apply emits_raise
  | |- emits _ (lift _) => apply emits_lift
  | |- emits _ (free _ _) => apply emits_free
  | |- emits _ (not_ _) => apply emits_not
  | |- emits _ (and_ _ _) => apply emits_and
  | |- emits _ (call _) => apply emits_call
  | |- emits _ (ask _ _) => apply emits_ask
  | |- emits _ (bind _ _) => apply emits_bind; [ | intros ? ]
  | |- emits _ (with_ _ _ _) => apply emits_with; [ | | intros ? ]
  | |- emits _ (if _ then _ else _) => apply emits_if
  | |- emits _ (match ?x with _ => _ end) => destruct x
  end.

Ltac emits_all := repeat emits_step.

(** ** [_prepare_batch] *)

(** C6: on a batch of exactly two elements [x, y], [_prepare_batch] returns
    [convert_tensor] of [x] and [convert_tensor] of [y], in this order, each
    with the given device and non_blocking flag, and nothing else is done to
    the data. *)
Theorem C6_prepare_batch_converts_both :
  forall `{Externals} (batch : list Tensor) (device : option Device) (non_blocking : bool),
    List.length batch = 2 ->
    exists x y,
      batch = [x; y] /\
      _prepare_batch batch device non_blocking =
        Ok [convert_tensor x device non_blocking; convert_tensor y device non_blocking].
Proof.
  intros O X batch device non_blocking L.
  destruct batch as [|x [|y [|z rest]]]; simpl in L; try discriminate.
  exists x, y. split; reflexivity.
Qed.

Lemma C6_witness :
  exists x y,
    [3; 4] = [x; y] /\
    @_prepare_batch Toy.objects Toy.externals [3; 4] (Some (DeviceStr "cuda")) true =
      Ok [Toy.move x (Some (DeviceStr "cuda")) true; Toy.move y (Some (DeviceStr "cuda")) true].
Proof.
  apply (@C6_prepare_batch_converts_both Toy.objects Toy.externals
           [3; 4] (Some (DeviceStr "cuda")) true).
  reflexivity.
Defined.

Example prepare_batch_on_cuda :
  @_prepare_batch Toy.objects Toy.externals [3; 4] (Some (DeviceStr "cuda")) true = Ok [1003; 1004].
Proof. reflexivity. Qed.

Lemma prepare_batch_wrong_length `{Externals} (batch : list Tensor) device non_blocking :
  List.length batch <> 2 -> _prepare_batch batch device non_blocking = Raise ValueError.
Proof.
  intros L. destruct batch as [|x [|y [|z rest]]]; try reflexivity.
  exfalso. apply L. reflexivity.
Qed.

(** C9: a batch whose length is not two makes the unpacking [x, y = batch]
    of [_prepare_batch] raise, and with it an iteration of a trainer and of
    an evaluator that use [_prepare_batch]. *)
Theorem C9_batch_of_other_length_raises :
  forall `{Externals} (batch : list Tensor),
    List.length batch <> 2 ->
    (forall device non_blocking,
        _prepare_batch batch device non_blocking = Raise ValueError) /\
    (forall Output env (a : Trainer.Args Output) l engine h,
        Trainer.prepare_batch a = _prepare_batch ->
        fst (_update env a l engine batch h) = Raise ValueError) /\
    (forall Output (a : Evaluator.Args Output) engine h,
        Evaluator.prepare_batch a = _prepare_batch ->
        fst (_inference a engine batch h) = Raise ValueError).
Proof.
  intros O X batch L. split; [|split].
  - intros. now apply prepare_batch_wrong_length.
  - intros Output env a l engine h E.
    unfold _update, bind, call, lift. rewrite E.
    rewrite prepare_batch_wrong_length by exact L. reflexivity.
  - intros Output a engine h E.
    unfold _inference, with_, bind, call, lift. rewrite E.
    rewrite prepare_batch_wrong_length by exact L. reflexivity.
Qed.

Lemma C9_witness :
  @_prepare_batch Toy.objects Toy.externals [3; 4; 5] None false = Raise ValueError /\
  fst (@_update Toy.objects Toy.externals nat Toy.torch_1_6 Toy.no_amp_args
         {| on_tpu := false; amp := AmpBool false; autocast := None;
            is_native_amp := Some false; is_apex_amp := Some false |}
         tt [3; 4; 5] []) = Raise ValueError /\
  fst (@_inference Toy.objects Toy.externals _ (Toy.eval_args None) tt [3; 4; 5] []) = Raise ValueError.
Proof.
  assert (L : List.length [3; 4; 5] <> 2) by discriminate.
  destruct (@C9_batch_of_other_length_raises Toy.objects Toy.externals [3; 4; 5] L)
    as (P & U & I).
  split; [apply P | split; [apply U; reflexivity | apply I; reflexivity]].
Defined.

(** ** The trainer's flag cells *)

Section TrainerFlags.
Context `{Externals}.
Variable Output : Type.
Variable env : Env.
Variable a : Trainer.Args Output.

(** Lines 109-119 touch no collaborator and leave a flag cell unassigned
    in each of their three outcomes. *)
Lemma amp_setup_unassigned (t : bool) (h h' : history) (l : Locals) :
  amp_setup env a t h = (Ok l, h') ->
  h' = h /\ unassigned_flag l /\ on_tpu l = t.
Proof.
  unfold amp_setup, unassigned_flag.
  destruct (Trainer.amp a && torch_ge_1_6_0 env).
  - inversion 1; subst; simpl; auto.
  - destruct (Trainer.amp a).
    + destruct (apex_importable env); inversion 1; subst; simpl; auto.
    + inversion 1; subst; simpl; auto.
Qed.

(** With a flag cell unassigned, an iteration gets as far as the test of
    line 125 and no further. *)
Lemma update_stops_at_line_125 (l : Locals) (engine : EngineObj)
    (batch : list Tensor) (h : history) :
  unassigned_flag l ->
  _update env a l engine batch h =
    (match Trainer.prepare_batch a batch (Trainer.device a) (Trainer.non_blocking a) with
     | Raise e => Raise e
     | Ok xy =>
         match unpack2 xy with
         | Raise e => Raise e
         | Ok _ => Raise (first_dispatch_error l)
         end
     end,
     h ++ [Ev_model_train (Trainer.model a); Ev_optimizer_zero_grad (Trainer.optimizer a)]).
Proof.
  intros U. unfold _update, first_dispatch_error.
  cbv beta iota zeta delta [bind call lift and_ not_ free ret raise].
  rewrite <- app_assoc. simpl app.
  destruct (Trainer.prepare_batch a batch (Trainer.device a) (Trainer.non_blocking a))
    as [xy|e]; [|reflexivity].
  destruct (unpack2 xy) as [[x y]|e]; [|reflexivity].
  destruct U as [N | [N A]]; rewrite N; [reflexivity|].
  rewrite A. reflexivity.
Qed.

(** What [create_supervised_trainer] returns when it returns: an engine
    around [_update], whose flag cells are as lines 109-119 left them. *)
Lemma trainer_is_update (h h' : history) (trainer : Engine Output) :
  create_supervised_trainer env a h = (Ok trainer, h') ->
  exists l,
    unassigned_flag l /\
    on_tpu l = on_tpu_of (Trainer.device a) /\
    trainer = {| process_function := _update env a l;
                 is_deterministic := Trainer.deterministic a;
                 attached := [] |} /\
    h' = h ++ [Ev_Engine_init (Trainer.deterministic a)].
Proof.
  unfold create_supervised_trainer, bind. fold (on_tpu_of (Trainer.device a)).
  destruct (on_tpu_of (Trainer.device a) && negb (has_xla_support env));
    [discriminate|].
  unfold ret at 1.
  destruct (amp_setup env a (on_tpu_of (Trainer.device a)) h) as [[l|e] h1] eqn:S;
    [|discriminate].
  apply amp_setup_unassigned in S. destruct S as (-> & U & T).
  unfold Engine_init, ret. inversion 1; subst.
  exists l. auto.
Qed.

Lemma trainer_update_raises (h h' : history) (trainer : Engine Output) :
  create_supervised_trainer env a h = (Ok trainer, h') ->
  forall engine batch h1,
    exists e,
      process_function trainer engine batch h1 =
        (Raise e,
         h1 ++ [Ev_model_train (Trainer.model a);
                Ev_optimizer_zero_grad (Trainer.optimizer a)]).
Proof.
  intros C engine batch h1.
  destruct (trainer_is_update _ C) as (l & U & _ & -> & _). simpl.
  rewrite update_stops_at_line_125 by exact U.
  destruct (Trainer.prepare_batch a batch (Trainer.device a) (Trainer.non_blocking a))
    as [xy|e]; [destruct (unpack2 xy) as [[x y]|e]|]; eauto.
Qed.

End TrainerFlags.

(** C1: in every flag configuration the factory can produce, an iteration
    of the returned trainer raises: it calls [model.train()] and
    [optimizer.zero_grad()], prepares the batch, and, if that gave two
    elements, stops with [NameError] at the first flag test.  No forward
    pass, loss, backward or optimizer step is executed and
    [output_transform] is never reached. *)
Theorem C1_update_raises_in_every_configuration :
  forall `{Externals} (Output : Type) (env : Env) (a : Trainer.Args Output) (h : history),
    match create_supervised_trainer env a h with
    | (Ok trainer, _) =>
        exists name,
          (name = "is_native_amp" \/ name = "is_apex_amp") /\
          forall engine batch h',
            process_function trainer engine batch h' =
              (match Trainer.prepare_batch a batch (Trainer.device a)
                                           (Trainer.non_blocking a) with
               | Raise e => Raise e
               | Ok xy =>
                   match unpack2 xy with
                   | Raise e => Raise e
                   | Ok _ => Raise (NameError name)
                   end
               end,
               h' ++ [Ev_model_train (Trainer.model a);
                      Ev_optimizer_zero_grad (Trainer.optimizer a)])
    | (Raise _, _) => True
    end.
Proof.
  intros O X Output env a h.
  destruct (create_supervised_trainer env a h) as [[trainer|e] h'] eqn:C; [|exact I].
  apply trainer_is_update in C. destruct C as (l & U & _ & -> & _).
  assert (N : exists name, (name = "is_native_amp" \/ name = "is_apex_amp") /\
                           first_dispatch_error l = NameError name).
  { unfold first_dispatch_error. destruct (is_native_amp l); eauto. }
  destruct N as (name & N & E). exists name. split; [exact N|].
  intros engine batch h1. simpl.
  rewrite update_stops_at_line_125 by exact U. rewrite E. reflexivity.
Qed.

Example update_without_amp :
  Toy.first_iteration (create_supervised_trainer Toy.torch_1_6 Toy.no_amp_args) [3; 4] =
    (Raise (NameError "is_native_amp"),
     [Ev_Engine_init false; Ev_model_train "net"; Ev_optimizer_zero_grad "sgd"]).
Proof. reflexivity. Qed.

Example update_with_native_amp :
  Toy.first_iteration
    (create_supervised_trainer Toy.torch_1_6 (Toy.with_amp [("max_norm", 1)] None)) [3; 4] =
    (Raise (NameError "is_apex_amp"),
     [Ev_Engine_init false; Ev_model_train "net"; Ev_optimizer_zero_grad "sgd"]).
Proof. reflexivity. Qed.

Example update_with_apex_amp :
  Toy.first_iteration
    (create_supervised_trainer Toy.torch_1_5_apex (Toy.with_amp [("max_norm", 1)] None)) [3; 4] =
    (Raise (NameError "is_native_amp"),
     [Ev_Engine_init false; Ev_model_train "net"; Ev_optimizer_zero_grad "sgd"]).
Proof. reflexivity. Qed.

Example update_on_tpu :
  Toy.first_iteration
    (create_supervised_trainer Toy.torch_xla (Toy.on_device (Some (DeviceStr "xla:0")))) [3; 4] =
    (Raise (NameError "is_native_amp"),
     [Ev_Engine_init false; Ev_model_train "net"; Ev_optimizer_zero_grad "sgd"]).
Proof. reflexivity. Qed.

(** What the dispatch of [_update] does once both flag cells hold a value,
    as no run of the factory leaves them: the three branches it is
    written for. *)
Example dispatch_native_amp_if_flags_were_assigned :
  _update Toy.torch_1_6 (Toy.with_amp [("max_norm", 1)] None)
    {| on_tpu := false; amp := AmpBool true; autocast := Some tt;
       is_native_amp := Some true; is_apex_amp := Some false |} tt [3; 4] [] =
    (Ok 2,
     [Ev_model_train "net"; Ev_optimizer_zero_grad "sgd";
      Ev_autocast_enter (AmpBool true); Ev_model_call "net" 3;
      Ev_loss_fn_call "mse" 6 4; Ev_autocast_exit;
      Ev_scaler_scale "scaler" 2; Ev_backward 32; Ev_scaler_unscale_ "scaler" "sgd";
      Ev_clip_grad_norm_ (ModelParameters "net") [("max_norm", 1)];
      Ev_scaler_step "scaler" "sgd"; Ev_scaler_update "scaler"]).
Proof. reflexivity. Qed.

Example dispatch_apex_amp_if_flags_were_assigned :
  _update Toy.torch_1_5_apex (Toy.with_amp [("max_norm", 1)] None)
    {| on_tpu := false; amp := AmpApexModule; autocast := None;
       is_native_amp := Some false; is_apex_amp := Some true |} tt [3; 4] [] =
    (Ok 2,
     [Ev_model_train "net"; Ev_optimizer_zero_grad "sgd";
      Ev_model_call "net" 3; Ev_loss_fn_call "mse" 6 4;
      Ev_scale_loss_enter 2 "sgd"; Ev_backward 16; Ev_scale_loss_exit;
      Ev_clip_grad_norm_ (MasterParams "sgd") [("max_norm", 1)];
      Ev_optimizer_step "sgd"]).
Proof. reflexivity. Qed.

Example dispatch_without_amp_if_flags_were_assigned :
  _update Toy.torch_1_6 Toy.no_amp_args
    {| on_tpu := false; amp := AmpBool false; autocast := None;
       is_native_amp := Some false; is_apex_amp := Some false |} tt [3; 4] [] =
    (Ok 2,
     [Ev_model_train "net"; Ev_optimizer_zero_grad "sgd";
      Ev_model_call "net" 3; Ev_loss_fn_call "mse" 6 4]).
Proof. reflexivity. Qed.

(** C3: whatever [grad_norm_kwargs] holds, no iteration of a trainer the
    factory returned reaches a [clip_grad_norm_] call: the events of an
    iteration contain none. *)
Theorem C3_no_iteration_clips :
  forall `{Externals} (Output : Type) (env : Env) (a : Trainer.Args Output) (h : history),
    match create_supervised_trainer env a h with
    | (Ok trainer, _) =>
        forall engine batch h',
          existsb is_clip (new_events (process_function trainer engine batch) h') = false
    | (Raise _, _) => True
    end.
Proof.
  intros O X Output env a h.
  destruct (create_supervised_trainer env a h) as [[trainer|e] h'] eqn:C; [|exact I].
  intros engine batch h1.
  destruct (trainer_update_raises _ _ _ C engine batch h1) as (e & E).
  erewrite new_events_app by (rewrite E; reflexivity).
  reflexivity.
Qed.

Example native_amp_with_max_norm_never_clips :
  existsb is_clip
    (snd (Toy.first_iteration
            (create_supervised_trainer Toy.torch_1_6 (Toy.with_amp [("max_norm", 1)] None))
            [3; 4])) = false.
Proof. reflexivity. Qed.

(** ** The evaluator *)

Section EvaluatorFacts.
Context `{Externals}.
Variable Output : Type.

Lemma metrics_or_empty_Some {K V : Type} (d : list (K * V)) :
  metrics_or_empty (Some d) = d.
Proof. destruct d; reflexivity. Qed.

Lemma attach_metrics_spec (items : list (string * Metric)) :
  forall (evaluator : Engine Output) (h : history),
    attach_metrics items evaluator h =
      (Ok {| process_function := process_function evaluator;
             is_deterministic := is_deterministic evaluator;
             attached := attached evaluator ++ items |},
       h ++ map attach_event items).
Proof.
  induction items as [|[name metric] rest IH]; intros evaluator h; simpl.
  - rewrite !app_nil_r. destruct evaluator; reflexivity.
  - unfold bind, Metric_attach. rewrite IH. simpl.
    rewrite <- !app_assoc. reflexivity.
Qed.

Lemma evaluator_spec (a : Evaluator.Args Output) (h : history) :
  create_supervised_evaluator a h =
    (Ok {| process_function := _inference a;
           is_deterministic := false;
           attached := metrics_or_empty (Evaluator.metrics a) |},
     h ++ Ev_Engine_init false :: map attach_event (metrics_or_empty (Evaluator.metrics a))).
Proof.
  unfold create_supervised_evaluator, bind, Engine_init.
  rewrite attach_metrics_spec. simpl. rewrite <- app_assoc. reflexivity.
Qed.

Lemma inference_emits (a : Evaluator.Args Output) (engine : EngineObj)
    (batch : list Tensor) :
  emits (inference_event (Evaluator.model a)) (_inference a engine batch).
Proof.
  unfold _inference. emits_all; constructor.
Qed.

Lemma inference_event_untouched (model : nn_Module) (e : Event) :
  inference_event model e ->
  touches_optimizer e || touches_loss_fn e = false.
Proof. destruct 1; reflexivity. Qed.

End EvaluatorFacts.

(** C5: the evaluator factory builds the engine around [_inference] and
    then attaches every item of the metrics dict to it, under the item's
    key and in the dict's order, before it returns the engine; with
    [metrics=None] nothing is attached. *)
Theorem C5_evaluator_attaches_every_metric :
  forall `{Externals} (Output : Type) (a : Evaluator.Args Output) (h : history),
    exists evaluator,
      create_supervised_evaluator a h =
        (Ok evaluator,
         h ++ Ev_Engine_init false :: map attach_event (attached evaluator)) /\
      process_function evaluator = _inference a /\
      attached evaluator =
        match Evaluator.metrics a with
        | Some d => d
        | None => []
        end.
Proof.
  intros O X Output a h.
  exists {| process_function := _inference a;
            is_deterministic := false;
            attached := metrics_or_empty (Evaluator.metrics a) |}.
  rewrite evaluator_spec. simpl.
  split; [reflexivity | split; [reflexivity|]].
  destruct (Evaluator.metrics a) as [d|]; [apply metrics_or_empty_Some | reflexivity].
Qed.

Example evaluator_with_two_metrics :
  let r := create_supervised_evaluator
             (Toy.eval_args (Some [("ap", "AveragePrecision"); ("acc", "Accuracy")])) [] in
  snd r = [Ev_Engine_init false;
           Ev_metric_attach "AveragePrecision" "ap";
           Ev_metric_attach "Accuracy" "acc"] /\
  match fst r with
  | Ok evaluator => attached evaluator = [("ap", "AveragePrecision"); ("acc", "Accuracy")]
  | Raise _ => False
  end.
Proof. split; reflexivity. Qed.

(** ** What an iteration calls *)

Section StepEvents.
Context {O : Objects} {X : Externals}.
Variable Output : Type.

Lemma starts_with_two_calls {A : Type} (e1 e2 : Event) (k : M A) (h : history) :
  emits (fun _ => True) k ->
  exists rest, snd ((call e1 ;; call e2 ;; k) h) = h ++ e1 :: e2 :: rest.
Proof.
  intros K. unfold bind, call.
  destruct (K ((h ++ [e1]) ++ [e2])) as (rest & E & _).
  exists rest. rewrite E, <- !app_assoc. reflexivity.
Qed.


Lemma update_starts (env : Env) (a : Trainer.Args Output) (l : Locals)
    (engine : EngineObj) (batch : list Tensor) (h : history) :
  exists rest,
    snd (_update env a l engine batch h) =
      h ++ Ev_model_train (Trainer.model a)
        :: Ev_optimizer_zero_grad (Trainer.optimizer a) :: rest.
Proof.
  unfold _update, forward_and_loss. cbv zeta.
  apply starts_with_two_calls.
  emits_all; exact I.
Qed.


(** [_inference] asks the world for nothing but the model's output. *)
Lemma inference_depends_on_model_only (X' : Externals) (a : Evaluator.Args Output)
    (engine : EngineObj) (batch : list Tensor) (h : history) :
  (forall h m x, @model_output O X' h m x = @model_output O X h m x) ->
  @_inference O X' Output a engine batch h = @_inference O X Output a engine batch h.
Proof.
  intros E. unfold _inference, with_, bind, call, ask, lift.
  destruct (Evaluator.prepare_batch a batch (Evaluator.device a) (Evaluator.non_blocking a))
    as [xy|e]; [|reflexivity].
  destruct (unpack2 xy) as [[x y]|e]; [|reflexivity].
  rewrite E. reflexivity.
Qed.

End StepEvents.

(** ** What the trainer's closure is wired to *)

Ltac symbolic_update :=
  unfold _update, forward_and_loss;
  cbv beta iota zeta delta [bind call ask lift with_ and_ not_ free ret raise].

(** Picks the element of a list of known events. *)
Ltac pick_event := repeat first [ left; reflexivity | right ].

(** On one path through [_update]: where the value returned comes from. *)
Ltac returning_path :=
  let output := fresh "output" in
  let E := fresh "E" in
  eexists; rewrite <- ?app_assoc; simpl;
  split; [reflexivity|];
  intros output E;
  first [ discriminate E
        | do 4 eexists;
          (split; [|split; [|split]]);
          [ reflexivity | pick_event | pick_event | exact E ] ].

Section TrainerWiring.
Context {O : Objects} {X : Externals}.
Variable Output : Type.

(** Whatever the flag cells hold, the model, the optimizer and the loss
    function an iteration calls are the factory's. *)
Lemma update_wired_to (env : Env) (a : Trainer.Args Output) (l : Locals)
    (engine : EngineObj) (batch : list Tensor) :
  emits (wired_to a) (_update env a l engine batch).
Proof.
  unfold _update, forward_and_loss. cbv zeta.
  emits_all; simpl; auto.
Qed.

(** An iteration that returns has called the factory's model and loss
    function, and returns [output_transform] of their answers. *)
Lemma update_returns_through_loss (env : Env) (a : Trainer.Args Output) (l : Locals)
    (engine : EngineObj) (batch : list Tensor) (h : history) :
  exists new,
    snd (_update env a l engine batch h) = h ++ new /\
    forall output,
      fst (_update env a l engine batch h) = Ok output ->
      exists x y hm hl,
        Trainer.prepare_batch a batch (Trainer.device a) (Trainer.non_blocking a) =
          Ok [x; y] /\
        In (Ev_model_call (Trainer.model a) x) new /\
        In (Ev_loss_fn_call (Trainer.loss_fn a)
              (model_output hm (Trainer.model a) x) y) new /\
        Trainer.output_transform a x y
          (model_output hm (Trainer.model a) x)
          (loss_output hl (Trainer.loss_fn a) (model_output hm (Trainer.model a) x) y) =
          Ok output.
Proof.
  symbolic_update. unfold global_xm.
  destruct (Trainer.prepare_batch a batch (Trainer.device a) (Trainer.non_blocking a))
    as [xy|e]; [|returning_path].
  destruct xy as [|x [|y [|z rest]]]; simpl; try returning_path.
  destruct l as [tpu am ac na ap]; simpl.
  destruct na as [[|]|], ap as [[|]|], ac as [[]|], am as [[|]|], tpu,
    (has_xla_support env), (Trainer.scaler a) as [s|],
    (Trainer.grad_norm_kwargs a) as [|kw kws]; simpl; returning_path.
Qed.

(** There are values of the flag cells with which an iteration on a
    prepared batch calls the loss function and returns
    [output_transform] of the loss. *)
Lemma update_reaches_loss (env : Env) (a : Trainer.Args Output)
    (engine : EngineObj) (batch : list Tensor) (h : history) (x y : Tensor) :
  Trainer.prepare_batch a batch (Trainer.device a) (Trainer.non_blocking a) = Ok [x; y] ->
  exists l hm hl,
    fst (_update env a l engine batch h) =
      Trainer.output_transform a x y
        (model_output hm (Trainer.model a) x)
        (loss_output hl (Trainer.loss_fn a) (model_output hm (Trainer.model a) x) y) /\
    In (Ev_loss_fn_call (Trainer.loss_fn a) (model_output hm (Trainer.model a) x) y)
       (new_events (_update env a l engine batch) h).
Proof.
  intros P.
  exists {| on_tpu := false; amp := AmpBool false; autocast := None;
            is_native_amp := Some false; is_apex_amp := Some false |}.
  do 2 eexists.
  assert (E : _update env a
                {| on_tpu := false; amp := AmpBool false; autocast := None;
                   is_native_amp := Some false; is_apex_amp := Some false |}
                engine batch h =
              (Trainer.output_transform a x y
                 (model_output (h ++ [Ev_model_train (Trainer.model a);
                                      Ev_optimizer_zero_grad (Trainer.optimizer a)])
                               (Trainer.model a) x)
                 (loss_output (h ++ [Ev_model_train (Trainer.model a);
                                     Ev_optimizer_zero_grad (Trainer.optimizer a);
                                     Ev_model_call (Trainer.model a) x])
                    (Trainer.loss_fn a)
                    (model_output (h ++ [Ev_model_train (Trainer.model a);
                                         Ev_optimizer_zero_grad (Trainer.optimizer a)])
                                  (Trainer.model a) x) y),
               h ++ [Ev_model_train (Trainer.model a);
                     Ev_optimizer_zero_grad (Trainer.optimizer a);
                     Ev_model_call (Trainer.model a) x;
                     Ev_loss_fn_call (Trainer.loss_fn a)
                       (model_output (h ++ [Ev_model_train (Trainer.model a);
                                            Ev_optimizer_zero_grad (Trainer.optimizer a)])
                                     (Trainer.model a) x) y])).
  { symbolic_update. rewrite P. simpl.
    destruct (Trainer.grad_norm_kwargs a); simpl; rewrite <- ?app_assoc; reflexivity. }
  split.
  - rewrite E. reflexivity.
  - erewrite new_events_app by (rewrite E; reflexivity). simpl. tauto.
Qed.

(** The outcome and the calls of an iteration of [_inference], path by path. *)
Lemma inference_run (a : Evaluator.Args Output) (engine : EngineObj)
    (batch : list Tensor) (h : history) :
  _inference a engine batch h =
    match Evaluator.prepare_batch a batch (Evaluator.device a)
                                  (Evaluator.non_blocking a) with
    | Raise e =>
        (Raise e, h ++ [Ev_model_eval (Evaluator.model a); Ev_no_grad_enter; Ev_no_grad_exit])
    | Ok xy =>
        match unpack2 xy with
        | Raise e =>
            (Raise e,
             h ++ [Ev_model_eval (Evaluator.model a); Ev_no_grad_enter; Ev_no_grad_exit])
        | Ok (x, y) =>
            (Evaluator.output_transform a x y
               (model_output (h ++ [Ev_model_eval (Evaluator.model a); Ev_no_grad_enter])
                             (Evaluator.model a) x),
             h ++ [Ev_model_eval (Evaluator.model a); Ev_no_grad_enter;
                   Ev_model_call (Evaluator.model a) x; Ev_no_grad_exit])
        end
    end.
Proof.
  unfold _inference, with_, bind, call, ask, lift.
  destruct (Evaluator.prepare_batch a batch (Evaluator.device a) (Evaluator.non_blocking a))
    as [xy|e]; [|rewrite <- !app_assoc; reflexivity].
  destruct (unpack2 xy) as [[x y]|e]; rewrite <- !app_assoc; reflexivity.
Qed.

End TrainerWiring.

(** C2, counterexample: an iteration of an evaluator runs to its end and
    returns [(y_pred, y)] while no optimizer and no loss function takes
    part in it. *)
Lemma C2_evaluator_iteration_without_optimizer_and_loss :
  let run := Toy.first_iteration (create_supervised_evaluator (Toy.eval_args None)) [3; 4] in
  run = (Ok (6, 4),
         [Ev_Engine_init false; Ev_model_eval "net"; Ev_no_grad_enter;
          Ev_model_call "net" 3; Ev_no_grad_exit]) /\
  ~ (exists e, In e (snd run) /\ (touches_optimizer e = true \/ touches_loss_fn e = true)).
Proof.
  split; [reflexivity|].
  intros (e & I & T). simpl in I.
  repeat (destruct I as [<- | I]; [destruct T; discriminate|]).
  contradiction.
Qed.

(** C2, amended: the trainer's callback is the closure [_update], wired to
    the factory's model, optimizer and loss function: every iteration
    begins with [model.train()] and [optimizer.zero_grad()] on the
    factory's model and optimizer; whatever the flag cells hold, every
    call of an iteration on a model, an optimizer or a loss function is on
    the factory's; an iteration that returns has called the model on [x]
    and the loss function on [(y_pred, y)] and returns
    [output_transform(x, y, y_pred, loss)] of their answers; and there are
    values of the flag cells with which an iteration on a prepared batch
    does so.  The evaluator's callback is the closure [_inference] over
    the model only: an iteration calls [model.eval()], enters
    [torch.no_grad()], calls [model(x)] when batch preparation gave two
    elements, and leaves [torch.no_grad()], and returns
    [output_transform(x, y, y_pred)]; none of its calls is on an optimizer
    or a loss function, and its outcome is the same whatever the loss
    function and the scalers of the world do. *)
Theorem C2_callbacks_of_the_factories :
  forall {O : Objects} {X : Externals} (Output : Type),
    (forall env (a : Trainer.Args Output) h trainer h',
        create_supervised_trainer env a h = (Ok trainer, h') ->
        exists l, process_function trainer = _update env a l) /\
    (forall env (a : Trainer.Args Output) l engine batch h,
        exists rest,
          snd (_update env a l engine batch h) =
            h ++ Ev_model_train (Trainer.model a)
              :: Ev_optimizer_zero_grad (Trainer.optimizer a) :: rest) /\
    (forall (a : Evaluator.Args Output) h,
        exists evaluator h',
          create_supervised_evaluator a h = (Ok evaluator, h') /\
          process_function evaluator = _inference a) /\
    (forall (a : Evaluator.Args Output) engine batch,
        emits (inference_event (Evaluator.model a)) (_inference a engine batch)) /\
    (forall (a : Evaluator.Args Output) engine batch h,
        existsb (fun e => touches_optimizer e || touches_loss_fn e)
                (new_events (_inference a engine batch) h) = false) /\
    (forall (X' : Externals) (a : Evaluator.Args Output) engine batch h,
        (forall h m x, @model_output O X' h m x = @model_output O X h m x) ->
        @_inference O X' Output a engine batch h = @_inference O X Output a engine batch h) /\
    (forall env (a : Trainer.Args Output) l engine batch,
        emits (wired_to a) (_update env a l engine batch)) /\
    (forall env (a : Trainer.Args Output) l engine batch h output,
        fst (_update env a l engine batch h) = Ok output ->
        exists x y hm hl,
          Trainer.prepare_batch a batch (Trainer.device a) (Trainer.non_blocking a) =
            Ok [x; y] /\
          In (Ev_model_call (Trainer.model a) x)
             (new_events (_update env a l engine batch) h) /\
          In (Ev_loss_fn_call (Trainer.loss_fn a)
                (model_output hm (Trainer.model a) x) y)
             (new_events (_update env a l engine batch) h) /\
          Trainer.output_transform a x y
            (model_output hm (Trainer.model a) x)
            (loss_output hl (Trainer.loss_fn a)
               (model_output hm (Trainer.model a) x) y) = Ok output) /\
    (forall env (a : Trainer.Args Output) engine batch h x y,
        Trainer.prepare_batch a batch (Trainer.device a) (Trainer.non_blocking a) =
          Ok [x; y] ->
        exists l hm hl,
          fst (_update env a l engine batch h) =
            Trainer.output_transform a x y
              (model_output hm (Trainer.model a) x)
              (loss_output hl (Trainer.loss_fn a)
                 (model_output hm (Trainer.model a) x) y) /\
          In (Ev_loss_fn_call (Trainer.loss_fn a)
                (model_output hm (Trainer.model a) x) y)
             (new_events (_update env a l engine batch) h)) /\
    (forall (a : Evaluator.Args Output) engine batch h,
        _inference a engine batch h =
          match Evaluator.prepare_batch a batch (Evaluator.device a)
                                        (Evaluator.non_blocking a) with
          | Raise e =>
              (Raise e,
               h ++ [Ev_model_eval (Evaluator.model a); Ev_no_grad_enter; Ev_no_grad_exit])
          | Ok xy =>
              match unpack2 xy with
              | Raise e =>
                  (Raise e,
                   h ++ [Ev_model_eval (Evaluator.model a); Ev_no_grad_enter;
                         Ev_no_grad_exit])
              | Ok (x, y) =>
                  (Evaluator.output_transform a x y
                     (model_output
                        (h ++ [Ev_model_eval (Evaluator.model a); Ev_no_grad_enter])
                        (Evaluator.model a) x),
                   h ++ [Ev_model_eval (Evaluator.model a); Ev_no_grad_enter;
                         Ev_model_call (Evaluator.model a) x; Ev_no_grad_exit])
              end
          end).
Proof.
  intros O X Output.
  split; [|split; [|split; [|split; [|split; [|split; [|split; [|split; [|split]]]]]]]].
  - intros env a h trainer h' C.
    apply trainer_is_update in C. destruct C as (l & _ & _ & -> & _).
    exists l. reflexivity.
  - intros. apply update_starts.
  - intros a h. rewrite evaluator_spec. eauto.
  - intros. apply inference_emits.
  - intros a engine batch h.
    pose proof (emits_new_events h (inference_emits a engine batch)) as F.
    induction F as [|e new Pe F IH]; [reflexivity|].
    simpl. rewrite (inference_event_untouched Pe). exact IH.
  - intros. now apply inference_depends_on_model_only.
  - intros. apply update_wired_to.
  - intros env a l engine batch h output E.
    destruct (update_returns_through_loss env a l engine batch h) as (new & S & R).
    erewrite new_events_app by exact S. apply R. exact E.
  - intros. now apply update_reaches_loss.
  - intros. apply inference_run.
Qed.

Lemma C2_witness :
  (exists l,
      process_function
        {| process_function :=
             _update Toy.torch_1_6 Toy.no_amp_args
               {| on_tpu := false; amp := AmpBool false; autocast := None;
                  is_native_amp := None; is_apex_amp := None |};
           is_deterministic := false;
           attached := [] |} =
      _update Toy.torch_1_6 Toy.no_amp_args l) /\
  @_inference Toy.objects Toy.externals_other_loss _ (Toy.eval_args None) tt [3; 4] [] =
  @_inference Toy.objects Toy.externals _ (Toy.eval_args None) tt [3; 4] [] /\
  (exists x y hm hl,
      @_prepare_batch Toy.objects Toy.externals [3; 4] None false = Ok [x; y] /\
      In (Ev_model_call "net" x)
         (new_events
            (_update Toy.torch_1_6 Toy.no_amp_args
               {| on_tpu := false; amp := AmpBool false; autocast := None;
                  is_native_amp := Some false; is_apex_amp := Some false |} tt [3; 4])
            []) /\
      In (Ev_loss_fn_call "mse" (Toy.net hm "net" x) y)
         (new_events
            (_update Toy.torch_1_6 Toy.no_amp_args
               {| on_tpu := false; amp := AmpBool false; autocast := None;
                  is_native_amp := Some false; is_apex_amp := Some false |} tt [3; 4])
            []) /\
      Ok (Toy.distance hl "mse" (Toy.net hm "net" x) y) = Ok 2) /\
  (exists l hm hl,
      fst (_update Toy.torch_1_6 Toy.no_amp_args l tt [3; 4] []) =
        Ok (Toy.distance hl "mse" (Toy.net hm "net" 3) 4) /\
      In (Ev_loss_fn_call "mse" (Toy.net hm "net" 3) 4)
         (new_events (_update Toy.torch_1_6 Toy.no_amp_args l tt [3; 4]) [])).
Proof.
  destruct (@C2_callbacks_of_the_factories Toy.objects Toy.externals nat)
    as (T & _ & _ & _ & _ & _ & _ & R & L & _).
  destruct (@C2_callbacks_of_the_factories Toy.objects Toy.externals (nat * nat))
    as (_ & _ & _ & _ & _ & D & _).
  split; [|split; [|split]].
  - apply (T Toy.torch_1_6 Toy.no_amp_args [] _ [Ev_Engine_init false]).
    reflexivity.
  - apply D. intros h m x. reflexivity.
  - apply (R Toy.torch_1_6 Toy.no_amp_args
             {| on_tpu := false; amp := AmpBool false; autocast := None;
                is_native_amp := Some false; is_apex_amp := Some false |}
             tt [3; 4] [] 2).
    reflexivity.
  - apply (L Toy.torch_1_6 Toy.no_amp_args tt [3; 4] [] 3 4).
    reflexivity.
Defined.

(** ** What the factories do at factory time *)

Section FactoryTime.
Context {O : Objects} {X : Externals}.
Variable Output : Type.









End FactoryTime.




(** ** The XLA guard *)

(** [str_in] is the substring test of Python's [in]. *)
Lemma str_in_spec (needle haystack : string) :
  needle <> "" ->
  (str_in needle haystack = true <->
   exists n, substring n (String.length needle) haystack = needle).
Proof.
  intros NE. unfold str_in.
  destruct (String.index 0 needle haystack) as [m|] eqn:E.
  - split; [intros _ | reflexivity].
    exists m. eapply index_correct1; eauto.
  - split; [discriminate|].
    intros (n & S). exfalso.
    apply (index_correct3 0 n needle haystack E NE); [lia | exact S].
Qed.

Example xla_device_strings :
  on_tpu_of (Some (DeviceStr "xla:0")) = true /\
  on_tpu_of (Some (TorchDevice "xla" (Some 1))) = true /\
  on_tpu_of (Some (TorchDevice "cuda" (Some 0))) = false /\
  on_tpu_of (Some (DeviceStr "cpu")) = false /\
  on_tpu_of None = false.
Proof. repeat split. Qed.

(** C7: when the device's type string contains ["xla"] and XLA support is
    missing, the trainer factory raises [RuntimeError] with the history
    as it found it, so before an engine is built; for a device of another
    type, and for no device, the factory raises no [RuntimeError]. *)
Theorem C7_xla_device_needs_xla_support :
  forall {O : Objects} {X : Externals} (Output : Type) (env : Env)
         (a : Trainer.Args Output) (h : history),
    (forall t,
        device_type (Trainer.device a) = Some t ->
        str_in "xla" t = true ->
        has_xla_support env = false ->
        create_supervised_trainer env a h =
          (Raise (RuntimeError "In order to run on TPU, please install PyTorch XLA"), h)) /\
    (device_type (Trainer.device a) = None \/
     (exists t, device_type (Trainer.device a) = Some t /\ str_in "xla" t = false) ->
     forall msg h', create_supervised_trainer env a h <> (Raise (RuntimeError msg), h')).
Proof.
  intros O X Output env a h. split.
  - intros t T I S. unfold create_supervised_trainer, bind.
    rewrite T, I, S. reflexivity.
  - intros D msg h'. unfold create_supervised_trainer, amp_setup, bind, Engine_init, ret, raise.
    assert (E : match device_type (Trainer.device a) with
                | Some t => str_in "xla" t
                | None => false
                end = false).
    { destruct D as [-> | (t & -> & I)]; auto. }
    rewrite E. simpl.
    destruct (Trainer.amp a && torch_ge_1_6_0 env); [discriminate|].
    destruct (Trainer.amp a); [|discriminate].
    destruct (apex_importable env); discriminate.
Qed.

Lemma C7_witness :
  create_supervised_trainer Toy.torch_1_6
      (Toy.with_amp [] (Some (TorchDevice "xla" (Some 0)))) [] =
    (Raise (RuntimeError "In order to run on TPU, please install PyTorch XLA"), []) /\
  create_supervised_trainer Toy.torch_1_5_apex
      (Toy.on_device (Some (DeviceStr "cuda:1"))) [] <>
    (Raise (RuntimeError "In order to run on TPU, please install PyTorch XLA"), []).
Proof.
  split.
  - apply (proj1 (@C7_xla_device_needs_xla_support Toy.objects Toy.externals nat
                    Toy.torch_1_6 (Toy.with_amp [] (Some (TorchDevice "xla" (Some 0)))) [])
                 "xla"); reflexivity.
  - apply (proj2 (@C7_xla_device_needs_xla_support Toy.objects Toy.externals nat
                    Toy.torch_1_5_apex (Toy.on_device (Some (DeviceStr "cuda:1"))) [])).
    right. exists "cuda:1". split; reflexivity.
Defined.

(** ** [AveragePrecision] *)

(** C4: the compute function of the metric returns
    [average_precision_score] of sklearn applied to the numpy view of the
    targets moved to the CPU, first, and of the predictions moved to the
    CPU, second; whatever that function is, nothing else enters the
    result. *)
Theorem C4_compute_fn_is_sklearn_score :
  forall (Tensor NDArray Score : Type) (cpu : Tensor -> Tensor) (numpy : Tensor -> NDArray)
         (sklearn_average_precision_score : NDArray -> NDArray -> Score),
    exists wrapper,
      AveragePrecision.average_precision_compute_fn
        cpu numpy sklearn_average_precision_score true = Ok wrapper /\
      forall y_preds y_targets,
        wrapper y_preds y_targets =
          sklearn_average_precision_score (numpy (cpu y_targets)) (numpy (cpu y_preds)).
Proof.
  intros. eexists. split; reflexivity.
Qed.

(** The order of the two arguments matters: with a score that is not
    symmetric, predictions [5] and targets [1] give [score 1 5]. *)
Example compute_fn_puts_targets_first :
  match AveragePrecision.average_precision_compute_fn
          (fun t : nat => t) (fun t : nat => t) (fun y_true y_pred => y_true - y_pred) true with
  | Ok wrapper => wrapper 5 1 = 0 /\ wrapper 1 5 = 4
  | Raise _ => False
  end.
Proof. split; reflexivity. Qed.

(** C8: without sklearn the constructor raises [RuntimeError], not
    [ImportError]; with sklearn it returns the metric, whose compute
    function, as handed to [EpochMetric.__init__], is the function that
    delegates to sklearn. *)
Theorem C8_init_needs_sklearn :
  forall (Tensor NDArray Score Transform : Type) (cpu : Tensor -> Tensor)
         (numpy : Tensor -> NDArray)
         (sklearn_average_precision_score : NDArray -> NDArray -> Score)
         (output_transform : Transform) (check_compute_fn : bool) (device : Device),
    AveragePrecision.__init__ cpu numpy sklearn_average_precision_score false
        output_transform check_compute_fn device =
      Raise (RuntimeError "This contrib module requires sklearn to be installed.") /\
    exists self,
      AveragePrecision.__init__ cpu numpy sklearn_average_precision_score true
          output_transform check_compute_fn device = Ok self /\
      AveragePrecision.average_precision_compute_fn
          cpu numpy sklearn_average_precision_score true =
        Ok (AveragePrecision.compute_fn (AveragePrecision.super self)) /\
      AveragePrecision.average_precision_compute self =
        AveragePrecision.compute_fn (AveragePrecision.super self) /\
      (forall y_preds y_targets,
          AveragePrecision.compute_fn (AveragePrecision.super self) y_preds y_targets =
            sklearn_average_precision_score (numpy (cpu y_targets)) (numpy (cpu y_preds))) /\
      AveragePrecision.output_transform (AveragePrecision.super self) = output_transform /\
      AveragePrecision.check_compute_fn (AveragePrecision.super self) = check_compute_fn /\
      AveragePrecision.device (AveragePrecision.super self) = device.
Proof.
  intros. split; [reflexivity|].
  eexists. split; [reflexivity|]. simpl. repeat split.
Qed.

Example init_without_sklearn :
  AveragePrecision.__init__ (fun t : nat => t) (fun t : nat => t)
      (fun y_true y_pred => y_true - y_pred) false tt false
      (TorchDevice "cpu" None) =
    Raise (RuntimeError "This contrib module requires sklearn to be installed.").
Proof. reflexivity. Qed.

(** * Further properties *)

Ltac run_update :=
  unfold _update, forward_and_loss;
  cbv beta iota zeta delta [bind call ask lift with_ and_ not_ free ret raise].

(** A clipping event of a run whose events are all known. *)
Ltac clip_case I :=
  simpl in I;
  repeat (destruct I as [I|I];
          [ try discriminate I; inversion I; subst; clear I; simpl;
            repeat split;
            first [ left; repeat split; reflexivity | right; repeat split; reflexivity ]
          | ]);
  contradiction.

(** The facts of [update_run_facts] on one path through [_update]. *)
Ltac update_path :=
  eexists; rewrite <- ?app_assoc; simpl;
  split; [reflexivity|];
  split; [reflexivity|];
  split; [ let p := fresh "p" in let kw := fresh "kw" in let I := fresh "I" in
           intros p kw I; clip_case I
         | first [ discriminate | intros _; do 4 eexists; repeat split; reflexivity ] ].

(** ** The trainer factory *)

(** X1: the trainer factory fails in two cases only, an XLA device without
    XLA support ([RuntimeError]) and [amp=True] on a torch older than 1.6.0
    without apex ([ImportError]), the first taking precedence; a failing
    call constructs no engine, and a call that returns has constructed
    exactly one, of the class [deterministic] selects, with no metric
    attached. *)
Theorem trainer_factory_outcome :
  forall {O : Objects} {X : Externals} (Output : Type) (env : Env)
         (a : Trainer.Args Output) (h : history),
    let blocked_tpu := on_tpu_of (Trainer.device a) && negb (has_xla_support env) in
    let missing_apex :=
      Trainer.amp a && negb (torch_ge_1_6_0 env) && negb (apex_importable env) in
    let r := create_supervised_trainer env a h in
    error_of (fst r) =
      (if blocked_tpu then
         Some (RuntimeError "In order to run on TPU, please install PyTorch XLA")
       else if missing_apex then
         Some (ImportError "Please install apex from https://github.com/nvidia/apex.")
       else None) /\
    snd r = (if blocked_tpu || missing_apex then h
             else h ++ [Ev_Engine_init (Trainer.deterministic a)]) /\
    match fst r with
    | Ok trainer =>
        is_deterministic trainer = Trainer.deterministic a /\ attached trainer = []
    | Raise _ => True
    end.
Proof.
  intros O X Output env a h. cbv zeta.
  unfold create_supervised_trainer, amp_setup, bind, Engine_init, ret, raise.
  fold (on_tpu_of (Trainer.device a)).
  destruct (on_tpu_of (Trainer.device a)), (has_xla_support env), (Trainer.amp a),
    (torch_ge_1_6_0 env), (apex_importable env); simpl; repeat split.
Qed.

(** ** An iteration of [_update], whatever its free variables hold *)

Section UpdateRuns.
Context {O : Objects} {X : Externals}.
Variable Output : Type.

(** One symbolic run through every path of [_update]. *)
Lemma update_run_facts (env : Env) (a : Trainer.Args Output) (l : Locals)
    (engine : EngineObj) (batch : list Tensor) (h : history) :
  exists new,
    snd (_update env a l engine batch h) = h ++ new /\
    in_order 0 new = true /\
    (forall p kw, In (Ev_clip_grad_norm_ p kw) new ->
        kw = Trainer.grad_norm_kwargs a /\
        dict_truthy kw = true /\
        existsb is_backward new = true /\
        ((p = ModelParameters (Trainer.model a) /\
          is_native_amp l = Some true /\ is_apex_amp l = Some false) \/
         (p = MasterParams (Trainer.optimizer a) /\
          is_native_amp l = Some false /\ is_apex_amp l = Some true))) /\
    (is_Ok (fst (_update env a l engine batch h)) = true ->
        exists n p x y,
          is_native_amp l = Some n /\ is_apex_amp l = Some p /\
          Trainer.prepare_batch a batch (Trainer.device a) (Trainer.non_blocking a) =
            Ok [x; y]).
Proof.
  run_update.
  destruct (Trainer.prepare_batch a batch (Trainer.device a) (Trainer.non_blocking a))
    as [xy|e]; [|update_path].
  destruct xy as [|x [|y [|z rest]]]; simpl; try update_path.
  destruct l as [tpu am ac na ap]; simpl.
  destruct na as [[|]|], ap as [[|]|], ac as [[]|], am as [[|]|], tpu,
    (has_xla_support env), (Trainer.scaler a) as [s|],
    (Trainer.grad_norm_kwargs a) as [|kw kws]; simpl;
  repeat match goal with
  | |- context [match ?r with Ok _ => _ | Raise _ => _ end] => destruct r
  end; simpl; update_path.
Qed.

Lemma in_order_sorted (events : history) :
  forall from,
    in_order from events = true ->
    exists phases,
      map update_phase events = map Some phases /\
      StronglySorted lt phases /\
      Forall (le from) phases.
Proof.
  induction events as [|e rest IH]; intros from E; simpl in E.
  - exists []. repeat split; constructor.
  - destruct (update_phase e) as [p|] eqn:P; [|discriminate].
    apply andb_prop in E. destruct E as [L R].
    apply Nat.leb_le in L.
    destruct (IH (S p) R) as (phases & M & S & F).
    exists (p :: phases). simpl. rewrite P, M. repeat split.
    + constructor; [exact S|].
      eapply Forall_impl; [|exact F]. intros q Q. exact Q.
    + constructor; [exact L|].
      eapply Forall_impl; [|exact F]. intros q Q. lia.
Qed.

End UpdateRuns.

(** X2: an iteration of [_update] returns a value only if both flag cells
    [is_native_amp] and [is_apex_amp] hold a value and [prepare_batch]
    gave exactly two elements. *)
Theorem update_returns_only_with_both_flags :
  forall {O : Objects} {X : Externals} (Output : Type) (env : Env)
         (a : Trainer.Args Output) (l : Locals) (engine : EngineObj)
         (batch : list Tensor) (h : history) (output : Output),
    fst (_update env a l engine batch h) = Ok output ->
    exists n p x y,
      is_native_amp l = Some n /\ is_apex_amp l = Some p /\
      Trainer.prepare_batch a batch (Trainer.device a) (Trainer.non_blocking a) =
        Ok [x; y].
Proof.
  intros O X Output env a l engine batch h output E.
  destruct (update_run_facts env a l engine batch h) as (new & _ & _ & _ & R).
  apply R. rewrite E. reflexivity.
Qed.

Lemma update_returns_only_with_both_flags_witness :
  exists n p x y,
    Some false = Some n /\ Some false = Some p /\
    @_prepare_batch Toy.objects Toy.externals [3; 4] None false = Ok [x; y].
Proof.
  apply (@update_returns_only_with_both_flags Toy.objects Toy.externals nat
           Toy.torch_1_6 Toy.no_amp_args
           {| on_tpu := false; amp := AmpBool false; autocast := None;
              is_native_amp := Some false; is_apex_amp := Some false |}
           tt [3; 4] [] 2).
  reflexivity.
Defined.

(** X3: in every iteration of [_update] the calls on the collaborators
    follow the order of the text, each place of the text being visited at
    most once: [model.train()], [optimizer.zero_grad()], entering autocast,
    the forward pass, the loss, leaving autocast, loss scaling, [backward],
    unscaling, clipping, one optimizer step, [scaler.update()].  No other
    call is made (no [model.eval()], no [model.to], no [torch.no_grad()]). *)
Theorem update_calls_in_order :
  forall {O : Objects} {X : Externals} (Output : Type) (env : Env)
         (a : Trainer.Args Output) (l : Locals) (engine : EngineObj)
         (batch : list Tensor) (h : history),
    exists phases,
      map update_phase (new_events (_update env a l engine batch) h) = map Some phases /\
      StronglySorted lt phases.
Proof.
  intros O X Output env a l engine batch h.
  destruct (update_run_facts env a l engine batch h) as (new & E & S & _).
  erewrite new_events_app by exact E.
  destruct (in_order_sorted new 0 S) as (phases & M & St & _).
  exists phases. split; assumption.
Qed.

(** X4: whenever an iteration of [_update] calls [clip_grad_norm_], it
    passes the factory's [grad_norm_kwargs], which are not empty, a
    [backward] call is part of the same iteration, and the parameters are
    [model.parameters()] with [is_native_amp] true and [is_apex_amp] false,
    or [amp.master_params(optimizer)] with the flags the other way round. *)
Theorem update_clips_after_backward :
  forall {O : Objects} {X : Externals} (Output : Type) (env : Env)
         (a : Trainer.Args Output) (l : Locals) (engine : EngineObj)
         (batch : list Tensor) (h : history) (p : Params) (kw : list (string * KwVal)),
    In (Ev_clip_grad_norm_ p kw) (new_events (_update env a l engine batch) h) ->
    kw = Trainer.grad_norm_kwargs a /\
    dict_truthy kw = true /\
    existsb is_backward (new_events (_update env a l engine batch) h) = true /\
    ((p = ModelParameters (Trainer.model a) /\
      is_native_amp l = Some true /\ is_apex_amp l = Some false) \/
     (p = MasterParams (Trainer.optimizer a) /\
      is_native_amp l = Some false /\ is_apex_amp l = Some true)).
Proof.
  intros O X Output env a l engine batch h p kw.
  destruct (update_run_facts env a l engine batch h) as (new & E & _ & C & _).
  erewrite new_events_app by exact E. apply C.
Qed.

Lemma update_clips_after_backward_witness :
  [("max_norm", 1)] = Trainer.grad_norm_kwargs (Toy.with_amp [("max_norm", 1)] None) /\
  dict_truthy [("max_norm", 1)] = true /\
  existsb is_backward
    (new_events
       (_update Toy.torch_1_5_apex (Toy.with_amp [("max_norm", 1)] None)
          {| on_tpu := false; amp := AmpApexModule; autocast := None;
             is_native_amp := Some false; is_apex_amp := Some true |} tt [3; 4])
       []) = true /\
  ((MasterParams "sgd" = ModelParameters "net" /\
    Some false = Some true /\ Some true = Some false) \/
   (MasterParams "sgd" = MasterParams "sgd" /\
    Some false = Some false /\ Some true = Some true)).
Proof.
  apply (@update_clips_after_backward Toy.objects Toy.externals nat
           Toy.torch_1_5_apex (Toy.with_amp [("max_norm", 1)] None)
           {| on_tpu := false; amp := AmpApexModule; autocast := None;
              is_native_amp := Some false; is_apex_amp := Some true |}
           tt [3; 4] [] (MasterParams "sgd") [("max_norm", 1)]).
  vm_compute. tauto.
Defined.

(** X5: when [prepare_batch] raises, or returns a sequence that is not of
    two elements, an iteration of [_update] raises that exception, or
    [ValueError], whatever the flag cells hold; by then [model.train()]
    and [optimizer.zero_grad()] have been called and nothing else. *)
Theorem update_fails_with_batch_preparation :
  forall {O : Objects} {X : Externals} (Output : Type) (env : Env)
         (a : Trainer.Args Output) (l : Locals) (engine : EngineObj)
         (batch : list Tensor) (h : history),
    let prepared :=
      Trainer.prepare_batch a batch (Trainer.device a) (Trainer.non_blocking a) in
    let done := h ++ [Ev_model_train (Trainer.model a);
                      Ev_optimizer_zero_grad (Trainer.optimizer a)] in
    (forall e, prepared = Raise e -> _update env a l engine batch h = (Raise e, done)) /\
    (forall xy, prepared = Ok xy -> List.length xy <> 2 ->
                _update env a l engine batch h = (Raise ValueError, done)).
Proof.
  intros O X Output env a l engine batch h. cbv zeta. split.
  - intros e E. run_update. rewrite E, <- app_assoc. reflexivity.
  - intros xy E L. run_update. rewrite E, <- app_assoc.
    destruct xy as [|x [|y [|z rest]]]; try reflexivity.
    exfalso. apply L. reflexivity.
Qed.

Lemma update_fails_with_batch_preparation_witness :
  _update Toy.torch_1_6 (Toy.on_device None)
    {| on_tpu := false; amp := AmpBool false; autocast := None;
       is_native_amp := Some false; is_apex_amp := Some false |} tt [3; 4; 5] [] =
    (Raise ValueError, [Ev_model_train "net"; Ev_optimizer_zero_grad "sgd"]) /\
  _update Toy.torch_1_6 Toy.no_amp_args
    {| on_tpu := false; amp := AmpBool false; autocast := None;
       is_native_amp := Some false; is_apex_amp := Some false |} tt [3] [] =
    (Raise ValueError, [Ev_model_train "net"; Ev_optimizer_zero_grad "sgd"]).
Proof.
  split.
  - apply (proj2 (@update_fails_with_batch_preparation Toy.objects Toy.externals nat
                    Toy.torch_1_6 (Toy.on_device None)
                    {| on_tpu := false; amp := AmpBool false; autocast := None;
                       is_native_amp := Some false; is_apex_amp := Some false |}
                    tt [3; 4; 5] []) [3; 4; 5]); [reflexivity | discriminate].
  - apply (proj1 (@update_fails_with_batch_preparation Toy.objects Toy.externals nat
                    Toy.torch_1_6 Toy.no_amp_args
                    {| on_tpu := false; amp := AmpBool false; autocast := None;
                       is_native_amp := Some false; is_apex_amp := Some false |}
                    tt [3] []) ValueError); reflexivity.
Defined.

(** ** An iteration of [_inference] *)

(** X9: every iteration of [_inference] calls [model.eval()], enters
    [torch.no_grad()] and leaves it again, also when [prepare_batch], the
    unpacking of its result or [output_transform] raises; the exception
    then propagates unchanged.  The model is called, once and inside
    [torch.no_grad()], exactly when batch preparation gave two elements. *)
Theorem inference_leaves_no_grad :
  forall {O : Objects} {X : Externals} (Output : Type) (a : Evaluator.Args Output)
         (engine : EngineObj) (batch : list Tensor) (h : history),
    let model := Evaluator.model a in
    let inside := h ++ [Ev_model_eval model; Ev_no_grad_enter] in
    _inference a engine batch h =
      match Evaluator.prepare_batch a batch (Evaluator.device a)
                                    (Evaluator.non_blocking a) with
      | Raise e => (Raise e, inside ++ [Ev_no_grad_exit])
      | Ok xy =>
          match unpack2 xy with
          | Raise e => (Raise e, inside ++ [Ev_no_grad_exit])
          | Ok (x, y) =>
              (Evaluator.output_transform a x y (model_output inside model x),
               inside ++ [Ev_model_call model x; Ev_no_grad_exit])
          end
      end.
Proof.
  intros O X Output a engine batch h. cbv zeta.
  unfold _inference, with_, bind, call, ask, lift.
  destruct (Evaluator.prepare_batch a batch (Evaluator.device a) (Evaluator.non_blocking a))
    as [xy|e]; [|rewrite <- !app_assoc; reflexivity].
  destruct (unpack2 xy) as [[x y]|e]; rewrite <- !app_assoc; reflexivity.
Qed.

(** X10: with the defaults for [prepare_batch] and [output_transform], an
    iteration of the evaluator returns exactly on batches of two elements
    [(x, y)], and then the pair of the model's prediction on the converted
    [x] and the converted [y], prediction first; on any other batch it
    raises [ValueError]. *)
Theorem default_evaluator_iteration :
  forall {O : Objects} {X : Externals} (a : Evaluator.Args (Tensor * Tensor))
         (engine : EngineObj) (batch : list Tensor) (h : history),
    Evaluator.prepare_batch a = _prepare_batch ->
    Evaluator.output_transform a = (fun x y y_pred => Ok (y_pred, y)) ->
    let model := Evaluator.model a in
    let device := Evaluator.device a in
    let non_blocking := Evaluator.non_blocking a in
    fst (_inference a engine batch h) =
      match batch with
      | [x; y] =>
          Ok (model_output (h ++ [Ev_model_eval model; Ev_no_grad_enter]) model
                           (convert_tensor x device non_blocking),
              convert_tensor y device non_blocking)
      | _ => Raise ValueError
      end.
Proof.
  intros O X a engine batch h P T. cbv zeta.
  unfold _inference, with_, bind, call, ask, lift. rewrite P, T.
  destruct batch as [|x [|y [|z rest]]]; simpl; try reflexivity.
  rewrite <- !app_assoc. reflexivity.
Qed.

Lemma default_evaluator_iteration_witness :
  fst (_inference (Toy.eval_args None) tt [3; 4] []) = Ok (6, 4).
Proof.
  exact (@default_evaluator_iteration Toy.objects Toy.externals
           (Toy.eval_args None) tt [3; 4] [] eq_refl eq_refl).
Defined.

(** ** [AveragePrecision] without sklearn *)

(** X11: the constructor returns exactly when sklearn is importable and
    never raises [ImportError]; the method [average_precision_compute_fn],
    which imports sklearn itself, raises [ImportError] when it is called
    without sklearn. *)
Theorem average_precision_needs_sklearn :
  forall (Tensor NDArray Score Transform : Type) (cpu : Tensor -> Tensor)
         (numpy : Tensor -> NDArray)
         (sklearn_average_precision_score : NDArray -> NDArray -> Score)
         (sklearn_importable : bool)
         (output_transform : Transform) (check_compute_fn : bool) (device : Device),
    is_Ok (AveragePrecision.__init__ cpu numpy sklearn_average_precision_score
             sklearn_importable output_transform check_compute_fn device) =
      sklearn_importable /\
    (forall msg,
        AveragePrecision.__init__ cpu numpy sklearn_average_precision_score
          sklearn_importable output_transform check_compute_fn device <>
        Raise (ImportError msg)) /\
    is_Ok (AveragePrecision.average_precision_compute_fn
             cpu numpy sklearn_average_precision_score sklearn_importable) =
      sklearn_importable /\
    exists msg,
      AveragePrecision.average_precision_compute_fn
        cpu numpy sklearn_average_precision_score false = Raise (ImportError msg).
Proof.
  intros. destruct sklearn_importable; repeat split; try discriminate.
  all: eexists; reflexivity.
Qed.

(** ** The TPU test *)

(** X12: [on_tpu] holds exactly when the device's type string has ["xla"]
    as a substring: a string device is searched as a whole, so ["xla:1"]
    counts, a [torch.device] by its type only, whatever its index, and no
    device gives false. *)
Theorem on_tpu_is_a_substring_test :
  forall (device : option Device),
    (on_tpu_of device = true <->
     exists t n, device_type device = Some t /\ substring n 3 t = "xla") /\
    (forall t i, on_tpu_of (Some (TorchDevice t i)) = on_tpu_of (Some (DeviceStr t))).
Proof.
  intros device. split; [|reflexivity].
  assert (NE : "xla" <> "") by discriminate.
  unfold on_tpu_of. destruct (device_type device) as [t|].
  - rewrite (str_in_spec t NE). simpl. split.
    + intros (n & S). exists t, n. auto.
    + intros (t' & n & E & S). inversion E; subst. eauto.
  - split; [discriminate|]. intros (t & n & E & _). discriminate.
Qed.

Lemma on_tpu_is_a_substring_test_witness :
  on_tpu_of (Some (DeviceStr "cuda+xla:1")) = true.
Proof.
  apply (proj2 (proj1 (on_tpu_is_a_substring_test (Some (DeviceStr "cuda+xla:1"))))).
  exists "cuda+xla:1", 5. split; reflexivity.
Defined.
